(** * lambda-gh-action: the Greeter and IP-Extractor request handlers

    A shallow embedding of the two Python handlers of the repository,

    - [src/lambda_function.py] (the Greeter: [validate_parameters],
      [log_request_metrics], [lambda_handler]), and
    - [src/lambda_SAM/.aws-sam/build/lambdaSAM/lambda_function.py]
      (the IP-Extractor: [get_client_ip], [validate_request],
      [lambda_handler]),

    together with the part of the Python run time they rely on: dynamically
    typed JSON-like values, exceptions, truthiness, [dict.get], [in],
    subscripting, [str.strip], [str.split], [int], string formatting and
    [json.dumps].

    Conventions of the embedding.

    - An event is a [value]: what the JSON decoder of the platform hands to
      the handler.  Numbers are integers (a float in an event is outside
      the embedding); a [string] is read as a Python [str] whose code points
      are below 256, one [ascii] per code point.
    - A Python dict is an association list in insertion order, which is the
      order [json.dumps] prints; lookups take the first binding of a key, so
      a list that repeats a key behaves as the dict of its first bindings.
    - Code that may raise returns a [result]; [try ... except] is written out.
    - The wall clock is an input: a [clock] holds the text that
      [datetime.utcnow().isoformat()] returns during the call.
    - Calls to the logger do not influence the response and are left out,
      except that the arguments Python evaluates for them may raise; those
      evaluations are kept ([log_request_metrics]).  The argument
      [json.dumps(event)] of the debug lines is total on [value]. *)

From Stdlib Require Import String Ascii List ZArith Bool Lia.
From Stdlib Require Import DecimalString DecimalZ DecimalFacts.
Import ListNotations.

#[local] Open Scope string_scope.
#[local] Open Scope Z_scope.

(** ** Python values, exceptions and built-ins *)

Module Py.

#[local] Unset Elimination Schemes.

Inductive value : Type :=
| VNone
| VBool (b : bool)
| VInt (z : Z)
| VStr (s : string)
| VList (l : list value)
| VDict (d : list (string * value)).

#[local] Set Elimination Schemes.

(** Induction over values, with the hypothesis available for every element
    of a list and every value stored in a dict. *)
Section ValueInduction.

Variable P : value -> Prop.
Hypothesis HNone : P VNone.
Hypothesis HBool : forall b, P (VBool b).
Hypothesis HInt : forall z, P (VInt z).
Hypothesis HStr : forall s, P (VStr s).
Hypothesis HList : forall l, Forall P l -> P (VList l).
Hypothesis HDict : forall d, Forall (fun kv => P (snd kv)) d -> P (VDict d).

Fixpoint value_ind (v : value) : P v :=
  match v with
  | VNone => HNone
  | VBool b => HBool b
  | VInt z => HInt z
  | VStr s => HStr s
  | VList l =>
      HList l ((fix elements (l : list value) : Forall P l :=
                  match l with
                  | [] => Forall_nil P
                  | x :: xs => Forall_cons x (value_ind x) (elements xs)
                  end) l)
  | VDict d =>
      HDict d ((fix members (d : list (string * value))
                  : Forall (fun kv => P (snd kv)) d :=
                  match d with
                  | [] => Forall_nil _
                  | kv :: d' => Forall_cons kv (value_ind (snd kv)) (members d')
                  end) d)
  end.

End ValueInduction.

Inductive exn : Type :=
| AttributeError
| TypeError
| ValueError
| KeyError
| IndexError.

Inductive result (A : Type) : Type :=
| Ok (a : A)
| Raise (e : exn).

Arguments Ok {A} a.
Arguments Raise {A} e.

Definition bind {A B : Type} (c : result A) (k : A -> result B) : result B :=
  match c with
  | Ok a => k a
  | Raise e => Raise e
  end.

Definition exn_eqb (e1 e2 : exn) : bool :=
  match e1, e2 with
  | AttributeError, AttributeError
  | TypeError, TypeError
  | ValueError, ValueError
  | KeyError, KeyError
  | IndexError, IndexError => true
  | _, _ => false
  end.

(** [try: c  except e: handler] for one exception class. *)
Definition try_except {A : Type} (c : result A) (e : exn) (handler : result A)
  : result A :=
  match c with
  | Ok a => Ok a
  | Raise e' => if exn_eqb e e' then handler else Raise e'
  end.

(** [try: c  except Exception: return fallback]. *)
Definition try_except_all {A : Type} (c : result A) (fallback : A) : A :=
  match c with
  | Ok a => a
  | Raise _ => fallback
  end.

(** Truth value testing ([if x:], [not x], [x and y], [x or y]). *)
Definition truthy (v : value) : bool :=
  match v with
  | VNone => false
  | VBool b => b
  | VInt z => negb (z =? 0)
  | VStr s => negb (s =? "")%string
  | VList l => match l with [] => false | _ :: _ => true end
  | VDict d => match d with [] => false | _ :: _ => true end
  end.

(** [a or b] evaluates to [a] when it is truthy and to [b] otherwise. *)
Definition py_or (a b : value) : value := if truthy a then a else b.

Fixpoint dict_lookup (k : string) (d : list (string * value)) : option value :=
  match d with
  | [] => None
  | (k', v) :: d' => if (k =? k')%string then Some v else dict_lookup k d'
  end.

(** [d[k] = v]: replaces the value of an existing key in place, appends a
    new key at the end. *)
Fixpoint dict_set (d : list (string * value)) (k : string) (v : value)
  : list (string * value) :=
  match d with
  | [] => [(k, v)]
  | (k', v') :: d' =>
      if (k =? k')%string then (k', v) :: d' else (k', v') :: dict_set d' k v
  end.

Fixpoint is_substring (needle hay : string) : bool :=
  String.prefix needle hay
  || match hay with
     | EmptyString => false
     | String _ hay' => is_substring needle hay'
     end.

(** [k in v] for a string [k]: key membership on a dict, substring test on a
    str, element membership on a list (a str equals only an equal str), and
    a TypeError on values that are not containers. *)
Definition contains (k : string) (v : value) : result bool :=
  match v with
  | VDict d => Ok (match dict_lookup k d with Some _ => true | None => false end)
  | VStr s => Ok (is_substring k s)
  | VList l =>
      Ok (existsb (fun x => match x with
                            | VStr s => (s =? k)%string
                            | _ => false
                            end) l)
  | VNone | VBool _ | VInt _ => Raise TypeError
  end.

(** [v[k]] for a string [k]. *)
Definition getitem (v : value) (k : string) : result value :=
  match v with
  | VDict d => match dict_lookup k d with
               | Some x => Ok x
               | None => Raise KeyError
               end
  | _ => Raise TypeError
  end.

(** [v.get(k, default)]; only a dict has the method. *)
Definition get (v : value) (k : string) (default : value) : result value :=
  match v with
  | VDict d => match dict_lookup k d with
               | Some x => Ok x
               | None => Ok default
               end
  | _ => Raise AttributeError
  end.

Definition code (c : ascii) : N := N_of_ascii c.

(** The double quote character. *)
Definition dquote : ascii := "034".

(** [str.isspace] on one code point below 256. *)
Definition is_space (c : ascii) : bool :=
  let n := code c in
  ((9 <=? n) && (n <=? 13) || (28 <=? n) && (n <=? 32)
   || (n =? 133) || (n =? 160))%N.

Fixpoint lstrip_with (sp : ascii -> bool) (s : string) : string :=
  match s with
  | EmptyString => EmptyString
  | String c s' => if sp c then lstrip_with sp s' else s
  end.

Fixpoint rstrip_with (sp : ascii -> bool) (s : string) : string :=
  match s with
  | EmptyString => EmptyString
  | String c s' =>
      match rstrip_with sp s' with
      | EmptyString => if sp c then EmptyString else String c EmptyString
      | r => String c r
      end
  end.

Definition strip_with (sp : ascii -> bool) (s : string) : string :=
  rstrip_with sp (lstrip_with sp s).

(** [s.strip()] *)
Definition str_strip (s : string) : string := strip_with is_space s.

(** [v.strip()]; only a str has the method. *)
Definition strip (v : value) : result string :=
  match v with
  | VStr s => Ok (str_strip s)
  | _ => Raise AttributeError
  end.

(** [s.split(sep)] for a one-character separator: never the empty list. *)
Fixpoint str_split (sep : ascii) (s : string) : list string :=
  match s with
  | EmptyString => [EmptyString]
  | String c s' =>
      if Ascii.eqb c sep then EmptyString :: str_split sep s'
      else match str_split sep s' with
           | [] => [String c EmptyString]
           | w :: ws => String c w :: ws
           end
  end.

(** [v.split(sep)]; only a str has the method. *)
Definition split (v : value) (sep : ascii) : result (list string) :=
  match v with
  | VStr s => Ok (str_split sep s)
  | _ => Raise AttributeError
  end.

(** [l[0]] on a list of strings. *)
Definition first_item (l : list string) : result string :=
  match l with
  | [] => Raise IndexError
  | x :: _ => Ok x
  end.

(** *** [int(x)] *)

Definition is_digit (c : ascii) : bool :=
  let n := code c in ((48 <=? n) && (n <=? 57))%N.

Definition digit_value (c : ascii) : Z := Z.of_N (code c) - 48.

(** White space that [int] accepts around the digits: the ASCII white space
    of C ([" \t\n\v\f\r"]) and the non-ASCII code points with [isspace],
    which the conversion first rewrites to a blank. *)
Definition int_space (c : ascii) : bool :=
  let n := code c in
  ((9 <=? n) && (n <=? 13) || (n =? 32) || (n =? 133) || (n =? 160))%N.

(** The digits of a base-10 literal: single underscores are allowed between
    digits only.  Returns the number read and how many digits it has. *)
Fixpoint int_digits (s : string) (acc : Z) (count : nat) (after_digit : bool)
  : option (Z * nat) :=
  match s with
  | EmptyString => if after_digit then Some (acc, count) else None
  | String c s' =>
      if is_digit c then int_digits s' (10 * acc + digit_value c) (S count) true
      else if Ascii.eqb c "_" then
             if after_digit then int_digits s' acc count false else None
      else None
  end.

(** [sys.get_int_max_str_digits()], the default of the interpreters the
    handlers run on. *)
Definition int_max_str_digits : nat := 4300.

Definition int_of_str (s : string) : result Z :=
  let core := strip_with int_space s in
  let '(negative, body) :=
    match core with
    | String "-" r => (true, r)
    | String "+" r => (false, r)
    | _ => (false, core)
    end in
  match int_digits body 0 0%nat false with
  | Some (n, count) =>
      if (int_max_str_digits <? count)%nat then Raise ValueError
      else Ok (if negative then - n else n)
  | None => Raise ValueError
  end.

(** [int(v)] *)
Definition py_int (v : value) : result Z :=
  match v with
  | VStr s => int_of_str s
  | VInt z => Ok z
  | VBool b => Ok (if b then 1 else 0)
  | VNone | VList _ | VDict _ => Raise TypeError
  end.

(** *** [str(v)] and [repr(v)], as used by f-strings *)

Definition hex_digit (n : N) : ascii :=
  match n with
  | 0%N => "0" | 1%N => "1" | 2%N => "2" | 3%N => "3"
  | 4%N => "4" | 5%N => "5" | 6%N => "6" | 7%N => "7"
  | 8%N => "8" | 9%N => "9" | 10%N => "a" | 11%N => "b"
  | 12%N => "c" | 13%N => "d" | 14%N => "e" | _ => "f"
  end%char.

(** The two lower-case hexadecimal digits of a code point below 256. *)
Definition hex2 (c : ascii) : string :=
  String (hex_digit (code c / 16)) (String (hex_digit (code c mod 16)) "").

(** Decimal text of an integer, as [repr] and [json.dumps] print it. *)
Definition int_to_str (z : Z) : string := NilZero.string_of_int (Z.to_int z).

Fixpoint has_char (c : ascii) (s : string) : bool :=
  match s with
  | EmptyString => false
  | String c' s' => Ascii.eqb c c' || has_char c s'
  end.

(** [str.isprintable] on one code point below 256. *)
Definition is_printable (c : ascii) : bool :=
  let n := code c in
  negb ((n <? 32) || (127 <=? n) && (n <=? 160) || (n =? 173))%N.

Definition repr_char (quote c : ascii) : string :=
  if Ascii.eqb c quote || Ascii.eqb c "\" then String "\" (String c "")
  else if Ascii.eqb c "009" then "\t"
  else if Ascii.eqb c "010" then "\n"
  else if Ascii.eqb c "013" then "\r"
  else if is_printable c then String c ""
  else "\x" ++ hex2 c.

Fixpoint repr_chars (quote : ascii) (s : string) : string :=
  match s with
  | EmptyString => EmptyString
  | String c s' => repr_char quote c ++ repr_chars quote s'
  end.

(** [repr] of a str: single quotes, unless the text has a single quote and
    no double quote. *)
Definition repr_str (s : string) : string :=
  let quote : ascii :=
    if has_char "'" s && negb (has_char dquote s) then dquote else "'"%char in
  String quote (repr_chars quote s ++ String quote "").

Fixpoint py_repr (v : value) : string :=
  match v with
  | VNone => "None"
  | VBool true => "True"
  | VBool false => "False"
  | VInt z => int_to_str z
  | VStr s => repr_str s
  | VList l => "[" ++ String.concat ", " (map py_repr l) ++ "]"
  | VDict d =>
      "{" ++ String.concat ", "
               (map (fun kv => repr_str (fst kv) ++ ": " ++ py_repr (snd kv)) d)
          ++ "}"
  end.

(** [str(v)], which is what [f"{v}"] inserts. *)
Definition py_str (v : value) : string :=
  match v with
  | VStr s => s
  | _ => py_repr v
  end.

(** The object passed as [context]: [None] (or any other falsy value, which
    the code treats alike), or an object that may or may not carry the
    attribute [aws_request_id]. *)
Inductive context : Type :=
| ContextNone
| ContextObject (aws_request_id : option value).

Definition context_truthy (c : context) : bool :=
  match c with
  | ContextNone => false
  | ContextObject _ => true
  end.

(** [context.aws_request_id] *)
Definition aws_request_id (c : context) : result value :=
  match c with
  | ContextObject (Some v) => Ok v
  | _ => Raise AttributeError
  end.

(** What the handler reads off the clock during one call:
    [datetime.utcnow().isoformat()], and the text [f"{duration:.2f}"] of the
    elapsed milliseconds that the metrics line carries. *)
Record clock : Type := {
  utcnow_isoformat : string;
  duration_text : string
}.

End Py.

Module PyNotations.
Notation "x <- c ;; k" := (Py.bind c (fun x => k))
  (at level 61, c at next level, right associativity).
End PyNotations.

(** ** [json.dumps] with its default settings, and a JSON reader *)

Module Json.

Import Py.

(** One character inside a JSON string, [ensure_ascii=True]: the short
    escapes, and a [\u00XX] escape for everything outside [' '..'~']. *)
Definition escape_char (c : ascii) : string :=
  if Ascii.eqb c dquote then String "\" (String dquote "")
  else if Ascii.eqb c "\" then "\\"
  else if Ascii.eqb c "010" then "\n"
  else if Ascii.eqb c "013" then "\r"
  else if Ascii.eqb c "009" then "\t"
  else if Ascii.eqb c "008" then "\b"
  else if Ascii.eqb c "012" then "\f"
  else if ((code c <? 32) || (126 <? code c))%N then "\u00" ++ hex2 c
  else String c "".

Fixpoint escape (s : string) : string :=
  match s with
  | EmptyString => EmptyString
  | String c s' => escape_char c ++ escape s'
  end.

Definition dumps_str (s : string) : string :=
  String dquote (escape s ++ String dquote "").

(** [json.dumps(v)]: item separator [", "], key separator [": "]. *)
Fixpoint dumps (v : value) : string :=
  match v with
  | VNone => "null"
  | VBool true => "true"
  | VBool false => "false"
  | VInt z => int_to_str z
  | VStr s => dumps_str s
  | VList l => "[" ++ String.concat ", " (map dumps l) ++ "]"
  | VDict d =>
      "{" ++ String.concat ", "
               (map (fun kv => dumps_str (fst kv) ++ ": " ++ dumps (snd kv)) d)
          ++ "}"
  end.

(** *** The reader

    A reader for the JSON that [dumps] writes: the grammar of RFC 8259 with
    integers as the only numbers and code points below 256 as the only
    characters.  An object is read into its members in the order of the
    text.  It is the yardstick for "this body is valid JSON". *)

Definition is_ws (c : ascii) : bool :=
  Ascii.eqb c " " || Ascii.eqb c "009" || Ascii.eqb c "010" || Ascii.eqb c "013".

Fixpoint skip_ws (s : string) : string :=
  match s with
  | EmptyString => EmptyString
  | String c s' => if is_ws c then skip_ws s' else s
  end.

Definition hex_value (c : ascii) : option N :=
  let n := code c in
  if ((48 <=? n) && (n <=? 57))%N then Some (n - 48)%N
  else if ((97 <=? n) && (n <=? 102))%N then Some (n - 87)%N
  else if ((65 <=? n) && (n <=? 70))%N then Some (n - 55)%N
  else None.

(** The character a short escape stands for. *)
Definition unescape (e : ascii) : option ascii :=
  if Ascii.eqb e dquote then Some dquote
  else if Ascii.eqb e "\" then Some "\"%char
  else if Ascii.eqb e "/" then Some "/"%char
  else if Ascii.eqb e "n" then Some "010"%char
  else if Ascii.eqb e "r" then Some "013"%char
  else if Ascii.eqb e "t" then Some "009"%char
  else if Ascii.eqb e "b" then Some "008"%char
  else if Ascii.eqb e "f" then Some "012"%char
  else None.

Definition push (c : ascii) (o : option (string * string))
  : option (string * string) :=
  match o with
  | Some (s, rest) => Some (String c s, rest)
  | None => None
  end.

Definition code_point (h1 h2 h3 h4 : ascii) : option ascii :=
  match hex_value h1, hex_value h2, hex_value h3, hex_value h4 with
  | Some a, Some b, Some c, Some d =>
      let n := (((a * 16 + b) * 16 + c) * 16 + d)%N in
      if (n <? 256)%N then Some (ascii_of_N n) else None
  | _, _, _, _ => None
  end.

(** The characters of a string after its opening quote, up to and including
    the closing quote. *)
Fixpoint read_chars (s : string) : option (string * string) :=
  match s with
  | EmptyString => None
  | String c r =>
      if Ascii.eqb c dquote then Some (EmptyString, r)
      else if Ascii.eqb c "\" then
        match r with
        | EmptyString => None
        | String e r1 =>
            if Ascii.eqb e "u" then
              match r1 with
              | String h1 (String h2 (String h3 (String h4 r2))) =>
                  match code_point h1 h2 h3 h4 with
                  | Some ch => push ch (read_chars r2)
                  | None => None
                  end
              | _ => None
              end
            else
              match unescape e with
              | Some ch => push ch (read_chars r1)
              | None => None
              end
        end
      else if (code c <? 32)%N then None
      else push c (read_chars r)
  end.

Fixpoint span_digits (s : string) : string * string :=
  match s with
  | EmptyString => (EmptyString, EmptyString)
  | String c r =>
      if is_digit c then
        let '(ds, rest) := span_digits r in (String c ds, rest)
      else (EmptyString, s)
  end.

(** [0] or a digit string that does not start with [0]. *)
Definition read_uint (s : string) : option (Decimal.uint * string) :=
  let '(ds, rest) := span_digits s in
  match NilZero.uint_of_string ds with
  | Some d => if Decimal.uint_beq (Decimal.unorm d) d then Some (d, rest) else None
  | None => None
  end.

Definition read_int (s : string) : option (value * string) :=
  match s with
  | EmptyString => None
  | String c r =>
      if Ascii.eqb c "-" then
        match read_uint r with
        | Some (d, rest) => Some (VInt (Z.of_int (Decimal.Neg d)), rest)
        | None => None
        end
      else
        match read_uint s with
        | Some (d, rest) => Some (VInt (Z.of_int (Decimal.Pos d)), rest)
        | None => None
        end
  end.

Fixpoint strip_prefix (p s : string) : option string :=
  match p with
  | EmptyString => Some s
  | String a p' =>
      match s with
      | EmptyString => None
      | String b s' => if Ascii.eqb a b then strip_prefix p' s' else None
      end
  end.

Definition read_keyword (kw : string) (v : value) (s : string)
  : option (value * string) :=
  match strip_prefix kw s with
  | Some rest => Some (v, rest)
  | None => None
  end.

Fixpoint read_value (fuel : nat) (s : string) : option (value * string) :=
  match fuel with
  | O => None
  | S fuel' =>
      match skip_ws s with
      | EmptyString => None
      | String c r =>
          if Ascii.eqb c dquote then
            match read_chars r with
            | Some (x, rest) => Some (VStr x, rest)
            | None => None
            end
          else if Ascii.eqb c "[" then
            match skip_ws r with
            | EmptyString => None
            | String c' r' =>
                if Ascii.eqb c' "]" then Some (VList [], r')
                else match read_elements fuel' r with
                     | Some (l, rest) => Some (VList l, rest)
                     | None => None
                     end
            end
          else if Ascii.eqb c "{" then
            match skip_ws r with
            | EmptyString => None
            | String c' r' =>
                if Ascii.eqb c' "}" then Some (VDict [], r')
                else match read_members fuel' r with
                     | Some (d, rest) => Some (VDict d, rest)
                     | None => None
                     end
            end
          else if Ascii.eqb c "n" then read_keyword "null" VNone (String c r)
          else if Ascii.eqb c "t" then read_keyword "true" (VBool true) (String c r)
          else if Ascii.eqb c "f" then read_keyword "false" (VBool false) (String c r)
          else read_int (String c r)
      end
  end

with read_elements (fuel : nat) (s : string) : option (list value * string) :=
  match fuel with
  | O => None
  | S fuel' =>
      match read_value fuel' s with
      | None => None
      | Some (v, rest) =>
          match skip_ws rest with
          | EmptyString => None
          | String c r =>
              if Ascii.eqb c "," then
                match read_elements fuel' r with
                | Some (l, rest') => Some (v :: l, rest')
                | None => None
                end
              else if Ascii.eqb c "]" then Some ([v], r)
              else None
          end
      end
  end

with read_members (fuel : nat) (s : string)
  : option (list (string * value) * string) :=
  match fuel with
  | O => None
  | S fuel' =>
      match skip_ws s with
      | EmptyString => None
      | String q r =>
          if Ascii.eqb q dquote then
            match read_chars r with
            | None => None
            | Some (k, rest) =>
                match skip_ws rest with
                | EmptyString => None
                | String colon r1 =>
                    if Ascii.eqb colon ":" then
                      match read_value fuel' r1 with
                      | None => None
                      | Some (v, rest1) =>
                          match skip_ws rest1 with
                          | EmptyString => None
                          | String c r2 =>
                              if Ascii.eqb c "," then
                                match read_members fuel' r2 with
                                | Some (d, rest') => Some ((k, v) :: d, rest')
                                | None => None
                                end
                              else if Ascii.eqb c "}" then Some ([(k, v)], r2)
                              else None
                          end
                      end
                    else None
                end
            end
          else None
      end
  end.

(** The value of a JSON text: one value, white space around it, nothing
    else.  [None] when the text is not JSON. *)
Definition loads (s : string) : option value :=
  match read_value (S (String.length s)) s with
  | Some (v, rest) =>
      match skip_ws rest with
      | EmptyString => Some v
      | String _ _ => None
      end
  | None => None
  end.


(** The field [k] of a text that is a JSON object. *)
Definition field (k : string) (s : string) : option value :=
  match loads s with
  | Some (VDict d) => dict_lookup k d
  | _ => None
  end.

(** *** Notions used to state that the reader reads [dumps] back *)

(** The text does not go on with a digit (so a number ends where it ends). *)
Definition digit_free (s : string) : Prop :=
  match s with
  | EmptyString => True
  | String c _ => is_digit c = false
  end.

(** The text starts with a character that is neither white space nor a
    closing bracket, as the text of every value does. *)
Definition starts_value (s : string) : Prop :=
  match s with
  | EmptyString => False
  | String c _ =>
      is_ws c = false /\ Ascii.eqb c "]" = false /\ Ascii.eqb c "}" = false
  end.

(** One member of an object as [dumps] prints it. *)
Definition member_text (kv : string * value) : string :=
  dumps_str (fst kv) ++ ": " ++ dumps (snd kv).

(** With fuel for the length of the text, the reader gets [v] back from the
    text of [v] and stops right after it. *)
Definition reads_back (v : value) : Prop :=
  forall fuel rest,
    (String.length (dumps v) <= fuel)%nat -> digit_free rest ->
    read_value fuel (dumps v ++ rest) = Some (v, rest).

End Json.


(** ** The response mapping

    A handler returns a Python dict with the keys ['statusCode'], ['body']
    and, on some paths, ['headers'].  These are the readers the statements
    below use on it. *)

Module Response.

Import Py.

Definition item (k : string) (r : value) : option value :=
  match r with
  | VDict d => dict_lookup k d
  | _ => None
  end.

Definition statusCode (r : value) : option Z :=
  match item "statusCode" r with
  | Some (VInt n) => Some n
  | _ => None
  end.

Definition headers (r : value) : option value := item "headers" r.

Definition body (r : value) : option string :=
  match item "body" r with
  | Some (VStr s) => Some s
  | _ => None
  end.

(** The field [k] of the JSON object in the body. *)
Definition body_field (k : string) (r : value) : option value :=
  match body r with
  | Some s => Json.field k s
  | None => None
  end.


End Response.

(** ** The Greeter: [src/lambda_function.py] *)

Module Greeter.

Import Py PyNotations.

(** [validate_parameters(query_params)]: the pair [(is_valid, error_message)],
    the message being a str or [None]. *)
Definition validate_parameters (query_params : value) : result (bool * value) :=
  if negb (truthy query_params) then
    Ok (false, VStr "No query parameters provided ya dodo")
  else
    raw_name <- get query_params "name" (VStr "") ;;
    name <- strip raw_name ;;
    age_str <- get query_params "age" (VStr "") ;;
    if negb (truthy (VStr name)) then
      Ok (false, VStr "Name parameter is required ya dodo")
    else
      returned <-
        (if truthy age_str then
           try_except
             (age <- py_int age_str ;;
              if (age <? 0) || (150 <? age) then
                Ok (Some (false, VStr "Age must be between 0 and 150"))
              else Ok None)
             ValueError
             (Ok (Some (false, VStr "Age must be a valid number")))
         else Ok None) ;;
      match returned with
      | Some r => Ok r
      | None => Ok (true, VNone)
      end.

(** [log_request_metrics(event, start_time)]: the dict handed to
    [logger.info]; building it may raise. *)
Definition log_request_metrics (event : value) (clk : clock) : result value :=
  rc1 <- get event "requestContext" (VDict []) ;;
  request_id <- get rc1 "requestId" (VStr "N/A") ;;
  rc2 <- get event "requestContext" (VDict []) ;;
  http2 <- get rc2 "http" (VDict []) ;;
  method <- get http2 "method" (VStr "N/A") ;;
  rc3 <- get event "requestContext" (VDict []) ;;
  http3 <- get rc3 "http" (VDict []) ;;
  path <- get http3 "path" (VStr "N/A") ;;
  rc4 <- get event "requestContext" (VDict []) ;;
  http4 <- get rc4 "http" (VDict []) ;;
  source_ip <- get http4 "sourceIp" (VStr "N/A") ;;
  Ok (VDict [("requestId", request_id);
             ("httpMethod", method);
             ("path", path);
             ("duration", VStr (duration_text clk ++ "ms"));
             ("timestamp", VStr (utcnow_isoformat clk));
             ("sourceIp", source_ip)]).

(** The [except Exception] branch of the handler. *)
Definition internal_error : value :=
  VDict [("statusCode", VInt 500);
         ("body", VStr (Json.dumps (VDict [("error", VStr "Internal server error");
                                           ("status", VStr "error")])))].

(** The [try] block of the handler. *)
Definition handle (event : value) (clk : clock) : result value :=
  params <- get event "queryStringParameters" (VDict []) ;;
  let query_params := py_or params (VDict []) in
  validation <- validate_parameters query_params ;;
  let '(is_valid, error_message) := validation in
  if negb is_valid then
    Ok (VDict [("statusCode", VInt 400);
               ("body", VStr (Json.dumps (VDict [("error", error_message);
                                                 ("status", VStr "failed")])))])
  else
    name <- get query_params "name" VNone ;;
    age <- get query_params "age" VNone ;;
    status_code <-
      (if truthy age then
         n <- py_int age ;;
         Ok (if n <? 18 then 202 else 200)
       else Ok 200) ;;
    let response_body :=
      VDict [("message", VStr ("Hello " ++ py_str name ++ "!"));
             ("age_provided", age);
             ("processed_at", VStr (utcnow_isoformat clk));
             ("status", VStr "success")] in
    _ <- log_request_metrics event clk ;;
    Ok (VDict [("statusCode", VInt status_code);
               ("headers", VDict [("Content-Type", VStr "application/json");
                                  ("X-Custom-Header", VStr "Lambda Demo")]);
               ("body", VStr (Json.dumps response_body))]).

(** [lambda_handler(event, context)] *)
Definition lambda_handler (event : value) (ctx : context) (clk : clock) : value :=
  try_except_all (handle event clk) internal_error.

End Greeter.

(** ** The IP-Extractor:
    [src/lambda_SAM/.aws-sam/build/lambdaSAM/lambda_function.py] *)

Module IpExtractor.

Import Py PyNotations.

(** The part of [get_client_ip] after the gateway branches: the first entry
    of the [x-forwarded-for] header. *)
Definition forwarded_for (event : value) : result value :=
  headers <- get event "headers" (VDict []) ;;
  present <- (if truthy headers then contains "x-forwarded-for" headers
              else Ok false) ;;
  if present then
    h <- getitem headers "x-forwarded-for" ;;
    parts <- split h "," ;;
    first <- first_item parts ;;
    Ok (VStr (str_strip first))
  else Ok VNone.

(** The [try] block of [get_client_ip]. *)
Definition client_ip_lookup (event : value) : result value :=
  in_event <- contains "requestContext" event ;;
  if in_event then
    rc <- getitem event "requestContext" ;;
    in_http <- contains "http" rc ;;
    if in_http then
      rc' <- getitem event "requestContext" ;;
      http <- getitem rc' "http" ;;
      get http "sourceIp" VNone
    else
      rc' <- getitem event "requestContext" ;;
      in_identity <- contains "identity" rc' ;;
      if in_identity then
        rc'' <- getitem event "requestContext" ;;
        identity <- getitem rc'' "identity" ;;
        get identity "sourceIp" VNone
      else forwarded_for event
  else forwarded_for event.

(** [get_client_ip(event)]; [VNone] is Python's [None]. *)
Definition get_client_ip (event : value) : value :=
  try_except_all (client_ip_lookup event) VNone.

(** [validate_request(event)]: the pair [(is_valid, error_message)]. *)
Definition validate_request (event : value) : bool * string :=
  try_except_all
    (in_event <- contains "requestContext" event ;;
     if negb in_event then Ok (false, "Request not from API Gateway")
     else
       request_context <- get event "requestContext" (VDict []) ;;
       http <- get request_context "http" VNone ;;
       invalid <- (if negb (truthy http) then
                     api_id <- get request_context "apiId" VNone ;;
                     Ok (negb (truthy api_id))
                   else Ok false) ;;
       if invalid then Ok (false, "Invalid API Gateway request context")
       else Ok (true, ""))
    (false, "Error validating request").

Definition json_headers : value :=
  VDict [("Content-Type", VStr "application/json")].

(** The response of the two rejections and of the [except] branch, which
    differ in the status code and the error text only. *)
Definition failure (status : Z) (error : string) (clk : clock) : value :=
  VDict [("statusCode", VInt status);
         ("headers", json_headers);
         ("body", VStr (Json.dumps (VDict [("error", VStr error);
                                           ("status", VStr "failed");
                                           ("timestamp", VStr (utcnow_isoformat clk))])))].

(** The [try] block of the handler. *)
Definition handle (event : value) (ctx : context) (clk : clock) : result value :=
  let '(is_valid, error_message) := validate_request event in
  if negb is_valid then Ok (failure 403 error_message clk)
  else
    let client_ip := get_client_ip event in
    if negb (truthy client_ip) then
      Ok (failure 400 "Could not determine client IP" clk)
    else
      request_id <- (if context_truthy ctx then aws_request_id ctx
                     else Ok (VStr "local-test")) ;;
      let response_data :=
        [("message", VStr "Request processed successfully");
         ("client_ip", client_ip);
         ("timestamp", VStr (utcnow_isoformat clk));
         ("request_id", request_id);
         ("status", VStr "success")] in
      in_event <- contains "requestContext" event ;;
      has_http <- (if in_event then
                     rc <- getitem event "requestContext" ;;
                     contains "http" rc
                   else Ok false) ;;
      response_data' <-
        (if has_http then
           rc1 <- getitem event "requestContext" ;;
           http1 <- getitem rc1 "http" ;;
           method <- get http1 "method" VNone ;;
           let with_method := dict_set response_data "method" method in
           rc2 <- getitem event "requestContext" ;;
           http2 <- getitem rc2 "http" ;;
           path <- get http2 "path" VNone ;;
           Ok (dict_set with_method "path" path)
         else Ok response_data) ;;
      Ok (VDict [("statusCode", VInt 200);
                 ("headers", VDict [("Content-Type", VStr "application/json");
                                    ("X-Custom-Header", VStr "API Gateway Request")]);
                 ("body", VStr (Json.dumps (VDict response_data')))]).

(** [lambda_handler(event, context)] *)
Definition lambda_handler (event : value) (ctx : context) (clk : clock) : value :=
  try_except_all (handle event ctx clk)
                 (failure 500 "Internal server error" clk).

End IpExtractor.

(** ** The vocabulary of the specification

    Events as the specification's data model has them, and the readings of
    its sentences that the handlers are compared with. *)

Module Spec.

Import Py.

(** A mapping from str to str ([Dict[str, str]]), as a Python dict. *)
Definition of_str_dict (params : list (string * string)) : value :=
  VDict (map (fun kv => (fst kv, VStr (snd kv))) params).

Fixpoint param (k : string) (params : list (string * string)) : option string :=
  match params with
  | [] => None
  | (k', s) :: params' => if (k =? k')%string then Some s else param k params'
  end.

(** The field [k], a missing field reading as the empty text. *)
Definition param_or_empty (k : string) (params : list (string * string)) : string :=
  match param k params with
  | Some s => s
  | None => EmptyString
  end.

(** The request context of the data model: absent, or a mapping whose
    [http] entry is absent or a mapping. *)
Definition context_well_formed (e : list (string * value)) : bool :=
  match dict_lookup "requestContext" e with
  | None => true
  | Some (VDict rc) =>
      match dict_lookup "http" rc with
      | None | Some (VDict _) => true
      | Some _ => false
      end
  | Some _ => false
  end.








(** The source address under [requestContext.<sub>], when there is one. *)
Definition source_address (sub : string) (e : list (string * value))
  : option value :=
  match dict_lookup "requestContext" e with
  | Some (VDict rc) =>
      match dict_lookup sub rc with
      | Some (VDict o) => dict_lookup "sourceIp" o
      | _ => None
      end
  | _ => None
  end.

(** The first comma-separated entry of the [x-forwarded-for] header,
    trimmed, when there is such a header. *)
Definition forwarded_entry (e : list (string * value)) : option value :=
  match dict_lookup "headers" e with
  | Some (VDict h) =>
      match dict_lookup "x-forwarded-for" h with
      | Some (VStr s) => Some (VStr (str_strip (hd EmptyString (str_split "," s))))
      | _ => None
      end
  | _ => None
  end.

Definition or_none (o : option value) : value :=
  match o with
  | Some v => v
  | None => VNone
  end.

(** The specification's reading of [get_client_ip]: the three places are
    tried in order and the first address found is returned. *)
Definition attempts_in_order (e : list (string * value)) : value :=
  match source_address "http" e with
  | Some a => a
  | None =>
      match source_address "identity" e with
      | Some a => a
      | None => or_none (forwarded_entry e)
      end
  end.

(** The specification's condition for an absent result: none of the three
    attempts yields an address, or the lookup raises. *)
Definition absent_only_when_nothing_found (e : list (string * value)) : Prop :=
  IpExtractor.get_client_ip (VDict e) = VNone ->
  (source_address "http" e = None
   /\ source_address "identity" e = None
   /\ forwarded_entry e = None)
  \/ (exists x, IpExtractor.client_ip_lookup (VDict e) = Raise x).

(** [o.get('sourceIp')] on the sub-object [o] the gateway shape selects;
    an [o] that is no mapping makes the lookup raise, which reads as absent. *)
Definition source_ip_of (o : value) : value :=
  match o with
  | VDict d => or_none (dict_lookup "sourceIp" d)
  | _ => VNone
  end.



(** The entry [k] of a mapping is there and truthy. *)
Definition truthy_entry (k : string) (d : list (string * value)) : bool :=
  truthy (or_none (dict_lookup k d)).

(** An event with nothing but query parameters. *)
Definition query (params : list (string * string)) : value :=
  VDict [("queryStringParameters", of_str_dict params)].





End Spec.

(** ** Events and clock readings used as examples *)

Module Examples.

Import Py.

Definition clock0 : clock :=
  {| utcnow_isoformat := "2024-01-01T00:00:00"; duration_text := "0.10" |}.



(** The same, behind a proxy that set the forwarding header. *)
Definition event_http_without_address : list (string * value) :=
  [("requestContext", VDict [("http", VDict [])]);
   ("headers", VDict [("x-forwarded-for", VStr "1.2.3.4, 5.6.7.8")])].


End Examples.

(** ** Responses and log lines written out

    The values the handlers build on each path, as functions of the event,
    for the facts about paths the specification does not single out. *)

Module Outcome.

Import Py Spec.

(** [d.get(k, default)] on the entries of a mapping. *)
Definition entry_or (k : string) (default : value) (d : list (string * value))
  : value :=
  match dict_lookup k d with
  | Some v => v
  | None => default
  end.

(** The entries of [event.get('requestContext', {})] when that is a mapping. *)
Definition context_entries (e : list (string * value)) : list (string * value) :=
  match dict_lookup "requestContext" e with
  | Some (VDict rc) => rc
  | _ => []
  end.

(** The entries of the [http] entry of the request context, likewise. *)
Definition http_entries (e : list (string * value)) : list (string * value) :=
  match dict_lookup "http" (context_entries e) with
  | Some (VDict h) => h
  | _ => []
  end.

(** The metrics line of the Greeter, every field defaulting to [N/A]. *)
Definition metrics_line (e : list (string * value)) (clk : clock) : value :=
  VDict [("requestId", entry_or "requestId" (VStr "N/A") (context_entries e));
         ("httpMethod", entry_or "method" (VStr "N/A") (http_entries e));
         ("path", entry_or "path" (VStr "N/A") (http_entries e));
         ("duration", VStr (duration_text clk ++ "ms"));
         ("timestamp", VStr (utcnow_isoformat clk));
         ("sourceIp", entry_or "sourceIp" (VStr "N/A") (http_entries e))].


(** The query parameters the Greeter validates: the entry of the event, an
    empty mapping when the entry is missing or falsy. *)
Definition query_params (e : list (string * value)) : value :=
  py_or (entry_or "queryStringParameters" (VDict []) e) (VDict []).




(** The request identifier of the IP-Extractor's payload. *)
Definition request_id_of (ctx : context) : value :=
  match ctx with
  | ContextObject (Some v) => v
  | _ => VStr "local-test"
  end.

(** The context object is truthy and has no [aws_request_id]. *)
Definition lacks_request_id (ctx : context) : bool :=
  match ctx with
  | ContextObject None => true
  | _ => false
  end.

(** The fields the IP-Extractor adds for a request context with an [http]
    entry. *)
Definition gateway_fields (e : list (string * value)) : list (string * value) :=
  match dict_lookup "http" (context_entries e) with
  | Some (VDict h) =>
      [("method", or_none (dict_lookup "method" h));
       ("path", or_none (dict_lookup "path" h))]
  | _ => []
  end.

(** The IP-Extractor's answer to an accepted request. *)
Definition ip_accepted_response (e : list (string * value)) (ctx : context)
           (clk : clock) : value :=
  VDict [("statusCode", VInt 200);
         ("headers", VDict [("Content-Type", VStr "application/json");
                            ("X-Custom-Header", VStr "API Gateway Request")]);
         ("body",
          VStr (Json.dumps
                  (VDict ([("message", VStr "Request processed successfully");
                           ("client_ip", IpExtractor.get_client_ip (VDict e));
                           ("timestamp", VStr (utcnow_isoformat clk));
                           ("request_id", request_id_of ctx);
                           ("status", VStr "success")]
                          ++ gateway_fields e))))].


(** The text has white space neither at its start nor at its end. *)
Definition trimmed (s : string) : Prop := str_strip s = s.

End Outcome.

(** * Facts

    ** The reader reads [dumps] back *)

Module JsonFacts.

Import Py Json.

(** Case analysis over the 256 characters. *)
Ltac each_char c := destruct c as [[] [] [] [] [] [] [] []].

Lemma app_assoc_str (a b c : string) : ((a ++ b) ++ c = a ++ (b ++ c))%string.
Proof. induction a as [|x a IH]; simpl; [reflexivity | now rewrite IH]. Qed.

Lemma app_nil_r_str (a : string) : (a ++ "" = a)%string.
Proof. induction a as [|x a IH]; simpl; [reflexivity | now rewrite IH]. Qed.

Lemma length_app_str (a b : string) :
  String.length (a ++ b) = (String.length a + String.length b)%nat.
Proof. induction a as [|x a IH]; simpl; [reflexivity | now rewrite IH]. Qed.

(** Reading an escaped character gives the character. *)
Lemma read_chars_escape_char (c : ascii) (t : string) :
  (read_chars (escape_char c ++ t) = push c (read_chars t)).
Proof.
  each_char c; reflexivity.
Qed.

(** Reading the escaped text of [s] up to the closing quote gives [s]. *)
Lemma read_chars_escape (s rest : string) :
  read_chars (escape s ++ String dquote rest) = Some (s, rest).
Proof.
  induction s as [|c s IH]; [reflexivity|].
  cbn [escape]. rewrite app_assoc_str, read_chars_escape_char, IH. reflexivity.
Qed.

Lemma span_digits_uint (d : Decimal.uint) (rest : string) :
  digit_free rest ->
  span_digits (NilEmpty.string_of_uint d ++ rest)
  = (NilEmpty.string_of_uint d, rest).
Proof.
  intros Hrest. induction d; cbn [NilEmpty.string_of_uint append span_digits];
    try (change (is_digit _) with true; cbv iota; rewrite IHd; reflexivity).
  destruct rest as [|c r]; [reflexivity|]. cbn in Hrest |- *. now rewrite Hrest.
Qed.

(** The decimal text of an integer: an optional minus sign and digits that
    are not empty and have no leading zero (but for [0] itself). *)
Lemma int_text (z : Z) :
  exists (negative : bool) (d : Decimal.uint),
    int_to_str z
    = ((if negative then "-" else "") ++ NilEmpty.string_of_uint d)%string
    /\ d <> Decimal.Nil
    /\ Decimal.unorm d = d
    /\ Z.of_int (if negative then Decimal.Neg d else Decimal.Pos d) = z.
Proof.
  unfold int_to_str.
  pose proof (DecimalZ.of_to z) as Hof.
  pose proof (DecimalZ.to_of (Z.to_int z)) as Hnorm. rewrite Hof in Hnorm.
  destruct (Z.to_int z) as [d|d].
  - exists false, d. cbn in Hnorm. injection Hnorm as Hd.
    assert (d <> Decimal.Nil) by (rewrite Hd; apply unorm_nonnil).
    repeat split; auto. now destruct d.
  - exists true, d. cbn in Hnorm.
    assert (Hnz : Decimal.nzhead d = d /\ d <> Decimal.Nil).
    { destruct (Decimal.nzhead d) eqn:E; try discriminate Hnorm;
        injection Hnorm as Hd; subst d; (split; [reflexivity|discriminate]). }
    destruct Hnz as [Hnz Hd]. repeat split; auto.
    + cbn. f_equal. now destruct d.
    + unfold Decimal.unorm. rewrite Hnz. now destruct d.
Qed.

Lemma read_uint_digits (d : Decimal.uint) (rest : string) :
  d <> Decimal.Nil -> Decimal.unorm d = d -> digit_free rest ->
  read_uint (NilEmpty.string_of_uint d ++ rest) = Some (d, rest).
Proof.
  intros Hd Hnorm Hrest. unfold read_uint.
  rewrite (span_digits_uint d rest Hrest).
  replace (NilEmpty.string_of_uint d) with (NilZero.string_of_uint d)
    by (now destruct d).
  rewrite (NilZero.usu d Hd), Hnorm.
  now rewrite (Decimal.internal_uint_dec_lb d d eq_refl).
Qed.

Lemma uint_head (d : Decimal.uint) :
  d <> Decimal.Nil ->
  exists c t, NilEmpty.string_of_uint d = String c t /\ is_digit c = true.
Proof. destruct d; intros H; try congruence; cbn; eauto. Qed.

(** Reading the decimal text of [z] gives [z]. *)
Lemma read_int_text (z : Z) (rest : string) :
  digit_free rest ->
  read_int (int_to_str z ++ rest) = Some (VInt z, rest).
Proof.
  intros Hrest. destruct (int_text z) as (negative & d & -> & Hd & Hnorm & Hz).
  destruct negative.
  - cbn. rewrite (read_uint_digits d rest Hd Hnorm Hrest). now rewrite <- Hz.
  - cbn [append]. destruct (uint_head d Hd) as (c & t & Ht & Hc).
    assert (E : read_int (NilEmpty.string_of_uint d ++ rest)
                = match read_uint (NilEmpty.string_of_uint d ++ rest) with
                  | Some (d', rest') => Some (VInt (Z.of_int (Decimal.Pos d')), rest')
                  | None => None
                  end).
    { rewrite Ht. cbn [append]. unfold read_int.
      replace (Ascii.eqb c "-") with false
        by (each_char c; try reflexivity; discriminate Hc).
      reflexivity. }
    rewrite E, (read_uint_digits d rest Hd Hnorm Hrest). now rewrite <- Hz.
Qed.

Lemma int_head (z : Z) :
  exists c t, int_to_str z = String c t /\ (c = "-"%char \/ is_digit c = true).
Proof.
  destruct (int_text z) as (negative & d & -> & Hd & _).
  destruct negative; cbn; [eauto|].
  destruct (uint_head d Hd) as (c & t & -> & Hc). eauto.
Qed.

Lemma read_value_number (fuel : nat) (c : ascii) (t : string) :
  c = "-"%char \/ is_digit c = true ->
  read_value (S fuel) (String c t) = read_int (String c t).
Proof.
  intros H.
  each_char c; try reflexivity;
    exfalso; destruct H as [H|H]; discriminate H.
Qed.

Lemma read_value_int (fuel : nat) (z : Z) (rest : string) :
  digit_free rest ->
  read_value (S fuel) (int_to_str z ++ rest) = Some (VInt z, rest).
Proof.
  intros Hrest. destruct (int_head z) as (c & t & Ht & Hc).
  rewrite <- (read_int_text z rest Hrest). rewrite Ht. cbn [append].
  now apply read_value_number.
Qed.

(** The text of a value starts with a character that is neither white
    space nor a closing bracket. *)
Lemma dumps_starts (v : value) (rest : string) : starts_value (dumps v ++ rest).
Proof.
  destruct v as [| [] | z | s | l | d]; try (cbn; auto; fail).
  cbn [dumps]. destruct (int_head z) as (c & t & -> & Hc). cbn.
  each_char c; auto;
    exfalso; destruct Hc as [Hc|Hc]; discriminate Hc.
Qed.

Lemma skip_ws_starts (s : string) : starts_value s -> skip_ws s = s.
Proof. destruct s as [|c s]; cbn; [easy|]. now intros (-> & _). Qed.

Lemma read_value_space (fuel : nat) (s : string) :
  read_value fuel (String " " s) = read_value fuel s.
Proof. destruct fuel; reflexivity. Qed.

Lemma read_elements_space (fuel : nat) (s : string) :
  read_elements fuel (String " " s) = read_elements fuel s.
Proof. destruct fuel; [reflexivity|]. cbn [read_elements]. now rewrite read_value_space. Qed.

Lemma read_members_space (fuel : nat) (s : string) :
  read_members fuel (String " " s) = read_members fuel s.
Proof. destruct fuel; reflexivity. Qed.

Lemma concat_cons2 (sep x y : string) (l : list string) :
  String.concat sep (x :: y :: l) = (x ++ sep ++ String.concat sep (y :: l))%string.
Proof. reflexivity. Qed.

(** Reading the elements of a non-empty list up to the closing bracket,
    given that each element reads back. *)
Lemma read_elements_dumps (l : list value) :
  l <> [] -> Forall reads_back l ->
  forall fuel rest,
    (String.length (String.concat ", " (map dumps l)) < fuel)%nat ->
    read_elements fuel (String.concat ", " (map dumps l) ++ String "]" rest)
    = Some (l, rest).
Proof.
  induction l as [|x xs IH]; [congruence|].
  intros _ HF fuel rest Hlen. inversion HF as [|? ? Hx Hxs]; subst.
  destruct fuel as [|f]; [lia|]. cbn [read_elements].
  destruct xs as [|y ys].
  - cbn [map String.concat] in *.
    rewrite (Hx f (String "]" rest)) by (lia || reflexivity). reflexivity.
  - cbn [map] in *. rewrite concat_cons2 in *.
    rewrite !length_app_str in Hlen. cbn [String.length] in Hlen.
    rewrite !app_assoc_str.
    rewrite (Hx f) by (lia || reflexivity).
    cbn [append skip_ws is_ws Ascii.eqb Bool.eqb orb]. cbv iota.
    rewrite read_elements_space.
    rewrite (IH ltac:(discriminate) Hxs f rest) by (cbn [map]; lia).
    reflexivity.
Qed.

(** Reading one member of an object, given that its value reads back. *)
Lemma read_member (k : string) (v : value) (f : nat) (tail : string) :
  reads_back v -> (String.length (member_text (k, v)) <= f)%nat ->
  digit_free tail ->
  read_members (S f) (member_text (k, v) ++ tail)
  = match skip_ws tail with
    | EmptyString => None
    | String c r2 =>
        if Ascii.eqb c "," then
          match read_members f r2 with
          | Some (d, rest') => Some ((k, v) :: d, rest')
          | None => None
          end
        else if Ascii.eqb c "}" then Some ([(k, v)], r2)
        else None
    end.
Proof.
  intros Hv Hlen Htail. unfold member_text, dumps_str in *. cbn [fst snd] in *.
  rewrite !length_app_str in Hlen. cbn [String.length append] in Hlen.
  rewrite length_app_str in Hlen. cbn [String.length] in Hlen.
  cbn [append read_members]. rewrite skip_ws_starts by (cbn; auto).
  change (Ascii.eqb dquote dquote) with true. cbv iota.
  rewrite !app_assoc_str. cbn [append]. rewrite read_chars_escape.
  rewrite skip_ws_starts by (cbn; auto).
  change (Ascii.eqb ":" ":") with true. cbv iota.
  rewrite read_value_space, (Hv f tail) by (lia || assumption).
  reflexivity.
Qed.

(** Reading the members of a non-empty object up to the closing brace. *)
Lemma read_members_dumps (d : list (string * value)) :
  d <> [] -> Forall (fun kv => reads_back (snd kv)) d ->
  forall fuel rest,
    (String.length (String.concat ", " (map member_text d)) < fuel)%nat ->
    read_members fuel (String.concat ", " (map member_text d) ++ String "}" rest)
    = Some (d, rest).
Proof.
  induction d as [|[k v] d1 IH]; [congruence|].
  intros _ HF fuel rest Hlen. inversion HF as [|? ? Hv Hd1]; subst. cbn [snd] in Hv.
  destruct fuel as [|f]; [lia|].
  destruct d1 as [|kv d2].
  - cbn [map String.concat] in *.
    rewrite (read_member k v f _ Hv) by (lia || reflexivity). reflexivity.
  - cbn [map] in *. rewrite concat_cons2 in *.
    rewrite !length_app_str in Hlen. cbn [String.length] in Hlen.
    rewrite !app_assoc_str.
    rewrite (read_member k v f _ Hv) by (lia || reflexivity).
    cbn [append skip_ws is_ws Ascii.eqb Bool.eqb orb]. cbv iota.
    rewrite read_members_space.
    rewrite (IH ltac:(discriminate) Hd1 f rest) by (cbn [map]; lia).
    reflexivity.
Qed.

Lemma dumps_length_pos (v : value) : (1 <= String.length (dumps v))%nat.
Proof.
  pose proof (dumps_starts v "") as H. rewrite app_nil_r_str in H.
  destruct (dumps v); [easy | cbn; lia].
Qed.

Lemma read_value_string (f : nat) (r : string) :
  read_value (S f) (String dquote r)
  = match read_chars r with
    | Some (x, rest) => Some (VStr x, rest)
    | None => None
    end.
Proof. reflexivity. Qed.

Lemma read_value_list (f : nat) (r : string) :
  read_value (S f) (String "[" r)
  = match skip_ws r with
    | EmptyString => None
    | String c t =>
        if Ascii.eqb c "]" then Some (VList [], t)
        else match read_elements f r with
             | Some (l, rest) => Some (VList l, rest)
             | None => None
             end
    end.
Proof. reflexivity. Qed.

Lemma read_value_dict (f : nat) (r : string) :
  read_value (S f) (String "{" r)
  = match skip_ws r with
    | EmptyString => None
    | String c t =>
        if Ascii.eqb c "}" then Some (VDict [], t)
        else match read_members f r with
             | Some (d, rest) => Some (VDict d, rest)
             | None => None
             end
    end.
Proof. reflexivity. Qed.

Lemma concat_starts (x : string) (xs : list string) (tail : string) :
  (forall t, starts_value (x ++ t)) ->
  starts_value (String.concat ", " (x :: xs) ++ tail).
Proof.
  intros Hx. destruct xs as [|y ys]; [apply Hx|].
  rewrite concat_cons2, app_assoc_str. apply Hx.
Qed.

Lemma member_starts (kv : string * value) (t : string) :
  starts_value (member_text kv ++ t).
Proof. unfold member_text, dumps_str. cbn. auto. Qed.

(** Every value reads back from its text, whatever follows the text (as
    long as a number is not followed by a digit). *)
Theorem read_value_dumps (v : value) : reads_back v.
Proof.
  induction v as [| b | z | s | l IH | d IH] using value_ind;
    intros fuel rest Hlen Hrest;
    (destruct fuel as [|f];
     [match type of Hlen with
      | (String.length (dumps ?w) <= _)%nat => pose proof (dumps_length_pos w)
      end; lia|]).
  - reflexivity.
  - destruct b; reflexivity.
  - now apply read_value_int.
  - cbn [dumps]. unfold dumps_str. cbn [append]. rewrite read_value_string.
    rewrite app_assoc_str. cbn [append]. now rewrite read_chars_escape.
  - destruct l as [|x xs]; [reflexivity|].
    cbn [dumps] in *. rewrite !length_app_str in Hlen. cbn [String.length] in Hlen.
    rewrite !app_assoc_str. cbn [append]. rewrite read_value_list.
    pose proof (concat_starts (dumps x) (map dumps xs) (String "]" rest)
                  (dumps_starts x)) as Hst.
    change (dumps x :: map dumps xs) with (map dumps (x :: xs)) in Hst.
    rewrite (skip_ws_starts _ Hst).
    rewrite (read_elements_dumps (x :: xs) ltac:(discriminate) IH f rest) by lia.
    destruct (String.concat ", " (map dumps (x :: xs)) ++ String "]" rest);
      [destruct Hst|].
    destruct Hst as (_ & -> & _). reflexivity.
  - destruct d as [|kv d1]; [reflexivity|].
    cbn [dumps] in *. fold member_text in *.
    rewrite !length_app_str in Hlen. cbn [String.length] in Hlen.
    rewrite !app_assoc_str. cbn [append]. rewrite read_value_dict.
    pose proof (concat_starts (member_text kv) (map member_text d1) (String "}" rest)
                  (member_starts kv)) as Hst.
    change (member_text kv :: map member_text d1)
      with (map member_text (kv :: d1)) in Hst.
    rewrite (skip_ws_starts _ Hst).
    rewrite (read_members_dumps (kv :: d1) ltac:(discriminate) IH f rest) by lia.
    destruct (String.concat ", " (map member_text (kv :: d1)) ++ String "}" rest);
      [destruct Hst|].
    destruct Hst as (_ & _ & ->). reflexivity.
Qed.

(** The round trip: [json.dumps] writes valid JSON, which reads back. *)
Theorem loads_dumps (v : value) : loads (dumps v) = Some v.
Proof.
  unfold loads.
  rewrite <- (app_nil_r_str (dumps v)) at 2.
  rewrite (read_value_dumps v (S (String.length (dumps v))) "") by (cbn; auto).
  reflexivity.
Qed.

(** The fields of a dumped dict are the entries of the dict. *)
Lemma field_dumps (k : string) (d : list (string * value)) :
  field k (dumps (VDict d)) = dict_lookup k d.
Proof. unfold field. now rewrite loads_dumps. Qed.

End JsonFacts.

(** ** Reading the body of a response *)

Module ResponseFacts.

Import Py Spec.

(** A body that [json.dumps] wrote for a dict reads back as that dict. *)
Lemma body_field_dumps (k : string) (r : value) (d : list (string * value)) :
  Response.body r = Some (Json.dumps (VDict d)) ->
  Response.body_field k r = dict_lookup k d.
Proof.
  intros H. unfold Response.body_field. rewrite H. apply JsonFacts.field_dumps.
Qed.


End ResponseFacts.

(** ** The Greeter *)

Module GreeterFacts.

Import Py PyNotations Spec Examples ResponseFacts.

Lemma lookup_of_str_dict (k : string) (params : list (string * string)) :
  dict_lookup k (map (fun kv => (fst kv, VStr (snd kv))) params)
  = option_map VStr (param k params).
Proof.
  induction params as [|[k' s] params IH]; [reflexivity|].
  cbn. destruct (k =? k')%string; [reflexivity | exact IH].
Qed.

Lemma get_of_str_dict (k : string) (params : list (string * string)) (default : value) :
  get (of_str_dict params) k default
  = Ok (match param k params with Some s => VStr s | None => default end).
Proof.
  unfold get, of_str_dict. rewrite lookup_of_str_dict.
  now destruct (param k params).
Qed.

Lemma truthy_of_str_dict (params : list (string * string)) :
  truthy (of_str_dict params) = match params with [] => false | _ => true end.
Proof. now destruct params. Qed.

(** [int] on a str raises nothing but ValueError. *)
Lemma int_of_str_raises (s : string) (e : exn) :
  int_of_str s = Raise e -> e = ValueError.
Proof.
  unfold int_of_str.
  destruct (match strip_with int_space s with
            | String "-" r => (true, r)
            | String "+" r => (false, r)
            | _ => (false, strip_with int_space s)
            end) as [negative body].
  destruct (int_digits body 0 0 false) as [[n count]|]; [|congruence].
  destruct (int_max_str_digits <? count)%nat; congruence.
Qed.

(** What [validate_parameters] computes on a non-empty mapping from str to
    str: no exception escapes, and the outcome is decided by the trimmed
    name and by the age text. *)
Lemma validate_typed (params : list (string * string)) :
  params <> [] ->
  Greeter.validate_parameters (of_str_dict params)
  = (if (str_strip (param_or_empty "name" params) =? "")%string then
       Ok (false, VStr "Name parameter is required ya dodo")
     else if (param_or_empty "age" params =? "")%string then Ok (true, VNone)
     else match int_of_str (param_or_empty "age" params) with
          | Ok n => if (n <? 0) || (150 <? n)
                    then Ok (false, VStr "Age must be between 0 and 150")
                    else Ok (true, VNone)
          | Raise _ => Ok (false, VStr "Age must be a valid number")
          end).
Proof.
  intros Hne. unfold Greeter.validate_parameters.
  rewrite truthy_of_str_dict, !get_of_str_dict.
  destruct params as [|p params]; [congruence|]. cbn [negb].
  set (ps := p :: params).
  replace (match param "name" ps with Some s => VStr s | None => VStr "" end)
    with (VStr (param_or_empty "name" ps))
    by (unfold param_or_empty; now destruct (param "name" ps)).
  replace (match param "age" ps with Some s => VStr s | None => VStr "" end)
    with (VStr (param_or_empty "age" ps))
    by (unfold param_or_empty; now destruct (param "age" ps)).
  cbn [bind strip truthy].
  destruct (str_strip (param_or_empty "name" ps) =? "")%string; [reflexivity|].
  cbn [negb].
  destruct (param_or_empty "age" ps =? "")%string; [reflexivity|].
  cbn [negb py_int].
  destruct (int_of_str (param_or_empty "age" ps)) as [n|e] eqn:Hint.
  - cbn. now destruct ((n <? 0) || (150 <? n)).
  - apply int_of_str_raises in Hint. subst e. reflexivity.
Qed.

Lemma eqb_empty_false (s : string) : s <> "" -> (s =? "")%string = false.
Proof. intros H. now apply String.eqb_neq. Qed.





(** Outside the data model: a request context that is no mapping makes the
    metrics line raise, and a request with good parameters is answered 500. *)
Lemma greeter_context_not_mapping (ctx : context) (clk : clock) :
  Greeter.lambda_handler
    (VDict [("queryStringParameters", of_str_dict [("name", "Ada")]);
            ("requestContext", VNone)]) ctx clk
  = Greeter.internal_error.
Proof. reflexivity. Qed.

(** Outside the data model: a [name] that is no str makes validation
    raise. *)
Lemma greeter_name_not_str (ctx : context) (clk : clock) :
  Greeter.lambda_handler
    (VDict [("queryStringParameters", VDict [("name", VNone)])]) ctx clk
  = Greeter.internal_error.
Proof. reflexivity. Qed.






(** C5.  [validate_parameters] on a mapping from str to str (and on an
    absent one): no parameters, the message about missing query parameters;
    a [name] that is empty once trimmed, the message that the name is
    required; an [age] that is there, not empty and not read by [int], the
    message about a valid number; an [age] read as a number outside 0..150,
    the message about the range; in every other case success with no
    message.  [int] on a str either gives a number or raises ValueError, so
    the cases are all there are.  The parameters name Ada, age 200 are
    answered with status 400. *)
Theorem C5_validate_parameters (params : list (string * string)) :
  let name := str_strip (param_or_empty "name" params) in
  let age := param_or_empty "age" params in
  let outcome := Greeter.validate_parameters (of_str_dict params) in
  Greeter.validate_parameters VNone
  = Ok (false, VStr "No query parameters provided ya dodo")
  /\ (params = [] ->
      outcome = Ok (false, VStr "No query parameters provided ya dodo"))
  /\ (params <> [] -> name = "" ->
      outcome = Ok (false, VStr "Name parameter is required ya dodo"))
  /\ (params <> [] -> name <> "" -> age <> "" ->
      int_of_str age = Raise ValueError ->
      outcome = Ok (false, VStr "Age must be a valid number"))
  /\ (params <> [] -> name <> "" -> age <> "" ->
      forall n, int_of_str age = Ok n -> n < 0 \/ 150 < n ->
      outcome = Ok (false, VStr "Age must be between 0 and 150"))
  /\ (params <> [] -> name <> "" ->
      age = "" \/ (exists n, int_of_str age = Ok n /\ 0 <= n <= 150) ->
      outcome = Ok (true, VNone))
  /\ (int_of_str age = Raise ValueError \/ exists n, int_of_str age = Ok n)
  /\ (forall ctx clk,
      Response.statusCode
        (Greeter.lambda_handler (query [("name", "Ada"); ("age", "200")]) ctx clk)
      = Some 400).
Proof.
  cbv zeta. split; [reflexivity|]. split; [now intros ->|].
  split; [|split; [|split; [|split; [|split]]]].
  - intros Hne Hname. rewrite (validate_typed params Hne), Hname. reflexivity.
  - intros Hne Hname Hage Hint. rewrite (validate_typed params Hne).
    rewrite (eqb_empty_false _ Hname), (eqb_empty_false _ Hage), Hint. reflexivity.
  - intros Hne Hname Hage n Hint Hrange. rewrite (validate_typed params Hne).
    rewrite (eqb_empty_false _ Hname), (eqb_empty_false _ Hage), Hint.
    replace ((n <? 0) || (150 <? n)) with true; [reflexivity|].
    symmetry. apply orb_true_iff. rewrite !Z.ltb_lt. exact Hrange.
  - intros Hne Hname Hage. rewrite (validate_typed params Hne).
    rewrite (eqb_empty_false _ Hname).
    destruct Hage as [-> | (n & Hint & Hrange)]; [reflexivity|].
    destruct (_ =? "")%string; [reflexivity|]. rewrite Hint.
    replace ((n <? 0) || (150 <? n)) with false; [reflexivity|].
    symmetry. apply orb_false_iff. rewrite !Z.ltb_ge. lia.
  - destruct (int_of_str _) as [n|e] eqn:Hint; [right; now exists n|left].
    now rewrite (int_of_str_raises _ _ Hint).
  - reflexivity.
Qed.

Lemma C5_witness :
  Greeter.validate_parameters (of_str_dict [("name", "Ada"); ("age", "200")])
  = Ok (false, VStr "Age must be between 0 and 150")
  /\ Greeter.validate_parameters (of_str_dict [("name", "Ada"); ("age", "12a")])
     = Ok (false, VStr "Age must be a valid number")
  /\ Greeter.validate_parameters (of_str_dict [("name", "  "); ("age", "30")])
     = Ok (false, VStr "Name parameter is required ya dodo")
  /\ Greeter.validate_parameters (of_str_dict [("name", "Ada"); ("age", " 150 ")])
     = Ok (true, VNone).
Proof.
  split; [|split; [|split]].
  - pose proof (C5_validate_parameters [("name", "Ada"); ("age", "200")]) as H.
    cbv zeta in H. destruct H as (_ & _ & _ & _ & Hrange & _).
    refine (Hrange _ _ _ 200 eq_refl (or_intror eq_refl));
      vm_compute; discriminate.
  - pose proof (C5_validate_parameters [("name", "Ada"); ("age", "12a")]) as H.
    cbv zeta in H. destruct H as (_ & _ & _ & Htype & _).
    refine (Htype _ _ _ eq_refl); vm_compute; discriminate.
  - pose proof (C5_validate_parameters [("name", "  "); ("age", "30")]) as H.
    cbv zeta in H. destruct H as (_ & _ & Hname & _).
    refine (Hname _ eq_refl). discriminate.
  - pose proof (C5_validate_parameters [("name", "Ada"); ("age", " 150 ")]) as H.
    cbv zeta in H. destruct H as (_ & _ & _ & _ & _ & Hok & _).
    refine (Hok _ _ (or_intror (ex_intro _ 150 (conj eq_refl (conj _ _)))));
      vm_compute; discriminate.
Defined.







End GreeterFacts.

(** ** The IP-Extractor *)

Module IpExtractorFacts.

Import Py PyNotations Spec Examples ResponseFacts.

(** A request that fails validation is answered 403 with the message of
    the validation. *)
Lemma ip_rejected (event : value) (ctx : context) (clk : clock) :
  fst (IpExtractor.validate_request event) = false ->
  IpExtractor.lambda_handler event ctx clk
  = IpExtractor.failure 403 (snd (IpExtractor.validate_request event)) clk.
Proof.
  unfold IpExtractor.lambda_handler, IpExtractor.handle.
  destruct (IpExtractor.validate_request event) as [valid msg]. cbn [fst snd].
  now intros ->.
Qed.

(** A validated request without a truthy client address is answered 400. *)
Lemma ip_no_address (event : value) (ctx : context) (clk : clock) :
  fst (IpExtractor.validate_request event) = true ->
  truthy (IpExtractor.get_client_ip event) = false ->
  IpExtractor.lambda_handler event ctx clk
  = IpExtractor.failure 400 "Could not determine client IP" clk.
Proof.
  unfold IpExtractor.lambda_handler, IpExtractor.handle.
  destruct (IpExtractor.validate_request event) as [valid msg]. cbn [fst snd].
  intros -> ->. reflexivity.
Qed.



Lemma failure_field (k : string) (code : Z) (msg : string) (clk : clock) :
  Response.body_field k (IpExtractor.failure code msg clk)
  = dict_lookup k [("error", VStr msg); ("status", VStr "failed");
                   ("timestamp", VStr (utcnow_isoformat clk))].
Proof. now apply body_field_dumps. Qed.



(** [validate_request] on an event that is a mapping, without exceptions. *)
Lemma validate_request_cases (e : list (string * value)) :
  IpExtractor.validate_request (VDict e)
  = match dict_lookup "requestContext" e with
    | None => (false, "Request not from API Gateway")
    | Some (VDict rc) =>
        if truthy_entry "http" rc || truthy_entry "apiId" rc then (true, "")
        else (false, "Invalid API Gateway request context")
    | Some _ => (false, "Error validating request")
    end.
Proof.
  unfold IpExtractor.validate_request, truthy_entry, or_none. cbn [contains get bind].
  destruct (dict_lookup "requestContext" e) as [[| | | | |rc]|]; try reflexivity.
  cbn [negb bind get].
  destruct (dict_lookup "http" rc) as [http|]; cbn [bind];
    [destruct (truthy http); cbn [negb orb bind]; [reflexivity|]|];
    destruct (dict_lookup "apiId" rc) as [api|]; cbn [bind truthy negb orb];
    try destruct (truthy api); reflexivity.
Qed.


Lemma str_split_first (sep : ascii) (s : string) :
  first_item (str_split sep s) = Ok (hd EmptyString (str_split sep s)).
Proof.
  destruct s as [|c s]; [reflexivity|]. cbn [str_split].
  destruct (Ascii.eqb c sep); [reflexivity|].
  destruct (str_split sep s); reflexivity.
Qed.

(** The header branch of [get_client_ip], exceptions read as absent. *)
Lemma forwarded_for_entry (e : list (string * value)) :
  try_except_all (IpExtractor.forwarded_for (VDict e)) VNone
  = or_none (forwarded_entry e).
Proof.
  unfold IpExtractor.forwarded_for, forwarded_entry. cbn [get].
  destruct (dict_lookup "headers" e) as [[|[]|z|s|l|h]|]; cbn [bind truthy contains];
    try reflexivity.
  - destruct (negb (z =? 0)); reflexivity.
  - destruct (negb (s =? "")%string); cbn [bind]; [|reflexivity].
    destruct (is_substring _ s); reflexivity.
  - destruct l; cbn [bind]; [reflexivity|].
    destruct (existsb _ _); reflexivity.
  - destruct h as [|kv h]; [reflexivity|]. cbn [bind getitem].
    destruct (dict_lookup "x-forwarded-for" (kv :: h)) as [[| | |s| |]|];
      try reflexivity.
    cbn [bind split]. rewrite str_split_first. reflexivity.
Qed.

Lemma get_client_ip_http (e rc : list (string * value)) (http : value) :
  dict_lookup "requestContext" e = Some (VDict rc) ->
  dict_lookup "http" rc = Some http ->
  IpExtractor.get_client_ip (VDict e) = source_ip_of http.
Proof.
  intros Hrc Hhttp.
  unfold IpExtractor.get_client_ip, IpExtractor.client_ip_lookup.
  cbn [contains getitem]. rewrite Hrc. cbn [bind contains getitem].
  rewrite Hhttp. cbn [bind].
  destruct http as [| | | | |d]; try reflexivity.
  cbn. now destruct (dict_lookup "sourceIp" d).
Qed.

Lemma get_client_ip_identity (e rc : list (string * value)) (identity : value) :
  dict_lookup "requestContext" e = Some (VDict rc) ->
  dict_lookup "http" rc = None ->
  dict_lookup "identity" rc = Some identity ->
  IpExtractor.get_client_ip (VDict e) = source_ip_of identity.
Proof.
  intros Hrc Hhttp Hid.
  unfold IpExtractor.get_client_ip, IpExtractor.client_ip_lookup.
  cbn [contains getitem]. rewrite Hrc. cbn [bind contains getitem].
  rewrite Hhttp. cbn [bind]. rewrite Hid. cbn [bind].
  destruct identity as [| | | | |d]; try reflexivity.
  cbn. now destruct (dict_lookup "sourceIp" d).
Qed.

Lemma get_client_ip_header (e : list (string * value)) :
  dict_lookup "requestContext" e = None
  \/ (exists rc, dict_lookup "requestContext" e = Some (VDict rc)
                 /\ dict_lookup "http" rc = None
                 /\ dict_lookup "identity" rc = None) ->
  IpExtractor.get_client_ip (VDict e) = or_none (forwarded_entry e).
Proof.
  intros H. rewrite <- forwarded_for_entry.
  unfold IpExtractor.get_client_ip, IpExtractor.client_ip_lookup.
  cbn [contains getitem].
  destruct H as [Hrc | (rc & Hrc & Hhttp & Hid)]; rewrite Hrc; cbn [bind contains];
    [reflexivity|].
  rewrite Hhttp. cbn [bind]. rewrite Hid. reflexivity.
Qed.

(** Where the two readings agree: without a request context the attempts
    in order come down to the header. *)
Lemma in_order_without_context (e : list (string * value)) :
  dict_lookup "requestContext" e = None ->
  IpExtractor.get_client_ip (VDict e) = attempts_in_order e.
Proof.
  intros Hrc. rewrite (get_client_ip_header e (or_introl Hrc)).
  unfold attempts_in_order, source_address. now rewrite Hrc.
Qed.

(** C2 as the specification states it does not hold.  On a request whose
    context has an [http] entry without a source address, and whose
    [x-forwarded-for] header names 1.2.3.4, [get_client_ip] returns absent
    although the third attempt yields an address and nothing is raised. *)
Lemma C2_counterexample :
  ~ absent_only_when_nothing_found event_http_without_address.
Proof.
  intros H. destruct (H eq_refl) as [(_ & _ & Hheader) | (x & Hraise)].
  - discriminate Hheader.
  - discriminate Hraise.
Qed.

(** C2, amended.  [get_client_ip] picks one place by the shape of the
    request context and looks nowhere else.  If the context has an [http]
    entry, the result is the source address of that entry, absent when it
    has none (or is no mapping).  Otherwise, if the context has an
    [identity] entry, the result is the source address of that entry, absent
    when it has none.  Only when there is no request context, or it has
    neither entry, the result is the first comma-separated entry of the
    [x-forwarded-for] header, trimmed, and absent when there is no such
    header.  In particular the header 1.2.3.4, 5.6.7.8 without gateway
    context fields gives 1.2.3.4. *)
Theorem C2_get_client_ip :
  (forall (e rc : list (string * value)) (http : value),
      dict_lookup "requestContext" e = Some (VDict rc) ->
      dict_lookup "http" rc = Some http ->
      IpExtractor.get_client_ip (VDict e) = source_ip_of http)
  /\ (forall (e rc : list (string * value)) (identity : value),
      dict_lookup "requestContext" e = Some (VDict rc) ->
      dict_lookup "http" rc = None ->
      dict_lookup "identity" rc = Some identity ->
      IpExtractor.get_client_ip (VDict e) = source_ip_of identity)
  /\ (forall e : list (string * value),
      dict_lookup "requestContext" e = None
      \/ (exists rc, dict_lookup "requestContext" e = Some (VDict rc)
                     /\ dict_lookup "http" rc = None
                     /\ dict_lookup "identity" rc = None) ->
      IpExtractor.get_client_ip (VDict e) = or_none (forwarded_entry e))
  /\ IpExtractor.get_client_ip
       (VDict [("headers", VDict [("x-forwarded-for", VStr "1.2.3.4, 5.6.7.8")])])
     = VStr "1.2.3.4".
Proof.
  split; [exact get_client_ip_http|].
  split; [exact get_client_ip_identity|].
  split; [exact get_client_ip_header|].
  reflexivity.
Qed.

Lemma C2_witness :
  IpExtractor.get_client_ip
    (VDict [("requestContext", VDict [("identity", VDict [("sourceIp", VStr "9.9.9.9")])])])
  = VStr "9.9.9.9"
  /\ IpExtractor.get_client_ip
       (VDict [("requestContext", VDict [("http", VDict [("sourceIp", VStr "8.8.8.8")])]);
               ("headers", VDict [("x-forwarded-for", VStr "1.2.3.4")])])
     = VStr "8.8.8.8"
  /\ IpExtractor.get_client_ip
       (VDict [("requestContext", VDict [("apiId", VStr "a1")]);
               ("headers", VDict [("x-forwarded-for", VStr " 1.2.3.4 ,5.6.7.8")])])
     = VStr "1.2.3.4".
Proof.
  destruct C2_get_client_ip as (Hhttp & Hidentity & Hheader & _).
  split; [|split].
  - exact (Hidentity
             [("requestContext", VDict [("identity", VDict [("sourceIp", VStr "9.9.9.9")])])]
             [("identity", VDict [("sourceIp", VStr "9.9.9.9")])]
             (VDict [("sourceIp", VStr "9.9.9.9")]) eq_refl eq_refl eq_refl).
  - exact (Hhttp
             [("requestContext", VDict [("http", VDict [("sourceIp", VStr "8.8.8.8")])]);
              ("headers", VDict [("x-forwarded-for", VStr "1.2.3.4")])]
             [("http", VDict [("sourceIp", VStr "8.8.8.8")])]
             (VDict [("sourceIp", VStr "8.8.8.8")]) eq_refl eq_refl).
  - refine (Hheader
              [("requestContext", VDict [("apiId", VStr "a1")]);
               ("headers", VDict [("x-forwarded-for", VStr " 1.2.3.4 ,5.6.7.8")])] _).
    right. exists [("apiId", VStr "a1")]. repeat split.
Defined.









End IpExtractorFacts.

(** ** Both handlers *)

Module HandlerFacts.

Import Py Spec Examples ResponseFacts GreeterFacts IpExtractorFacts.





End HandlerFacts.

(** * Further facts

    ** The paths of the Greeter *)

Module GreeterPaths.

Import Py PyNotations Spec Examples Outcome ResponseFacts GreeterFacts.

Lemma log_request_metrics_line (e : list (string * value)) (clk : clock) :
  context_well_formed e = true ->
  Greeter.log_request_metrics (VDict e) clk = Ok (metrics_line e clk).
Proof.
  unfold context_well_formed, Greeter.log_request_metrics, metrics_line,
    http_entries, context_entries, entry_or.
  cbn [get].
  destruct (dict_lookup "requestContext" e) as [[| | | | |rc]|]; try discriminate.
  - cbn [bind get].
    destruct (dict_lookup "http" rc) as [[| | | | |http]|]; try discriminate;
      intros _; cbn [bind get dict_lookup];
      repeat match goal with
             | |- context [match ?x with Some _ => _ | None => _ end] => destruct x
             end; reflexivity.
  - intros _. reflexivity.
Qed.

Lemma log_request_metrics_raises (e : list (string * value)) (clk : clock) :
  context_well_formed e = false ->
  Greeter.log_request_metrics (VDict e) clk = Raise AttributeError.
Proof.
  unfold context_well_formed, Greeter.log_request_metrics. cbn [get].
  destruct (dict_lookup "requestContext" e) as [[| | | | |rc]|]; try discriminate;
    try reflexivity.
  cbn [bind get].
  destruct (dict_lookup "http" rc) as [[| | | | |http]|]; try discriminate;
    intros _; destruct (dict_lookup "requestId" rc); reflexivity.
Qed.

(** X1.  The metrics line of the Greeter.  On an event whose request context
    is absent or a mapping, with an [http] entry that is absent or a mapping,
    the line is built without an exception, and request id, method, path
    and source address each read as the entry of the event or as [N/A] when
    the entry is missing; without any request context all four are [N/A].
    On any other event building the line raises an AttributeError. *)
Theorem metrics_defaults (e : list (string * value)) (clk : clock) :
  (context_well_formed e = true ->
   Greeter.log_request_metrics (VDict e) clk = Ok (metrics_line e clk))
  /\ (context_well_formed e = false ->
      Greeter.log_request_metrics (VDict e) clk = Raise AttributeError)
  /\ (dict_lookup "requestContext" e = None ->
      Greeter.log_request_metrics (VDict e) clk
      = Ok (VDict [("requestId", VStr "N/A");
                   ("httpMethod", VStr "N/A");
                   ("path", VStr "N/A");
                   ("duration", VStr (duration_text clk ++ "ms"));
                   ("timestamp", VStr (utcnow_isoformat clk));
                   ("sourceIp", VStr "N/A")])).
Proof.
  split; [apply log_request_metrics_line|].
  split; [apply log_request_metrics_raises|].
  intros Hrc. rewrite log_request_metrics_line
    by (unfold context_well_formed; now rewrite Hrc).
  unfold metrics_line, http_entries, context_entries. now rewrite Hrc.
Qed.

Lemma metrics_defaults_witness :
  Greeter.log_request_metrics
    (VDict [("requestContext",
             VDict [("requestId", VStr "r-1");
                    ("http", VDict [("method", VStr "GET")])])]) clock0
  = Ok (VDict [("requestId", VStr "r-1");
               ("httpMethod", VStr "GET");
               ("path", VStr "N/A");
               ("duration", VStr "0.10ms");
               ("timestamp", VStr "2024-01-01T00:00:00");
               ("sourceIp", VStr "N/A")])
  /\ Greeter.log_request_metrics
       (VDict [("requestContext", VDict [("http", VStr "GET /")])]) clock0
     = Raise AttributeError
  /\ Greeter.log_request_metrics (VDict [("headers", VDict [])]) clock0
     = Ok (VDict [("requestId", VStr "N/A");
                  ("httpMethod", VStr "N/A");
                  ("path", VStr "N/A");
                  ("duration", VStr "0.10ms");
                  ("timestamp", VStr "2024-01-01T00:00:00");
                  ("sourceIp", VStr "N/A")]).
Proof.
  split; [|split].
  - exact (proj1 (metrics_defaults
                    [("requestContext",
                      VDict [("requestId", VStr "r-1");
                             ("http", VDict [("method", VStr "GET")])])] clock0)
                 eq_refl).
  - exact (proj1 (proj2 (metrics_defaults
                           [("requestContext", VDict [("http", VStr "GET /")])] clock0))
                 eq_refl).
  - exact (proj2 (proj2 (metrics_defaults [("headers", VDict [])] clock0)) eq_refl).
Defined.





















End GreeterPaths.

(** ** The paths of the IP-Extractor *)

Module IpExtractorPaths.

Import Py PyNotations Spec Examples Outcome ResponseFacts IpExtractorFacts.

(** *** Trimming and splitting *)

Section Stripping.

Variable sp : ascii -> bool.

Lemma lstrip_head (s : string) :
  match lstrip_with sp s with
  | EmptyString => True
  | String c _ => sp c = false
  end.
Proof.
  induction s as [|c s IH]; cbn; [exact I|].
  destruct (sp c) eqn:Hc; [exact IH | exact Hc].
Qed.

Lemma rstrip_head (c : ascii) (s : string) :
  sp c = false -> exists t, rstrip_with sp (String c s) = String c t.
Proof.
  intros Hc. cbn. destruct (rstrip_with sp s); rewrite ?Hc; eauto.
Qed.

Lemma rstrip_idempotent (s : string) :
  rstrip_with sp (rstrip_with sp s) = rstrip_with sp s.
Proof.
  induction s as [|c s IH]; [reflexivity|]. cbn.
  destruct (rstrip_with sp s) as [|a r] eqn:Hr.
  - destruct (sp c) eqn:Hc; [reflexivity|]. cbn. now rewrite Hc.
  - cbn in IH |- *. now rewrite IH.
Qed.

Lemma strip_idempotent (s : string) :
  strip_with sp (strip_with sp s) = strip_with sp s.
Proof.
  unfold strip_with. pose proof (lstrip_head s) as Hhead.
  destruct (lstrip_with sp s) as [|c t]; [reflexivity|].
  pose proof (rstrip_idempotent (String c t)) as Hid.
  destruct (rstrip_head c t Hhead) as (t' & E). rewrite E in Hid |- *.
  cbn [lstrip_with]. rewrite Hhead. exact Hid.
Qed.

Lemma lstrip_keeps_out (c : ascii) (s : string) :
  has_char c s = false -> has_char c (lstrip_with sp s) = false.
Proof.
  induction s as [|a s IH]; [reflexivity|]. cbn [lstrip_with].
  destruct (sp a); [|auto]. cbn [has_char]. intros H.
  apply orb_false_iff in H. now apply IH.
Qed.

Lemma rstrip_keeps_out (c : ascii) (s : string) :
  has_char c s = false -> has_char c (rstrip_with sp s) = false.
Proof.
  induction s as [|a s IH]; [reflexivity|]. cbn [has_char rstrip_with].
  intros H. apply orb_false_iff in H. destruct H as [Ha Hs]. specialize (IH Hs).
  destruct (rstrip_with sp s) as [|b r].
  - destruct (sp a); cbn; [reflexivity | now rewrite Ha].
  - cbn [has_char] in IH |- *. now rewrite Ha, IH.
Qed.

End Stripping.

Lemma split_first_keeps_out (sep : ascii) (s : string) :
  has_char sep (hd EmptyString (str_split sep s)) = false.
Proof.
  induction s as [|c s IH]; [reflexivity|]. cbn [str_split].
  destruct (Ascii.eqb c sep) eqn:Hc; [reflexivity|].
  destruct (str_split sep s) as [|w ws]; cbn [hd has_char] in *;
    rewrite Ascii.eqb_sym, Hc; [reflexivity | exact IH].
Qed.

Lemma split_without_separator (sep : ascii) (s : string) :
  has_char sep s = false -> str_split sep s = [s].
Proof.
  induction s as [|c s IH]; [reflexivity|]. cbn [has_char str_split].
  intros H. apply orb_false_iff in H. destruct H as [Hc Hs].
  rewrite Ascii.eqb_sym, Hc, (IH Hs). reflexivity.
Qed.

(** X13.  The address read off the [x-forwarded-for] header.  When the
    request context selects the header (there is none, or it has neither an
    [http] nor an [identity] entry) and the header is a text, the result is a
    text with no comma and no white space at either end; for a header
    without a comma it is the whole header, trimmed. *)
Theorem forwarded_entry_is_clean
        (e h : list (string * value)) (s : string) :
  dict_lookup "requestContext" e = None
  \/ (exists rc, dict_lookup "requestContext" e = Some (VDict rc)
                 /\ dict_lookup "http" rc = None
                 /\ dict_lookup "identity" rc = None) ->
  dict_lookup "headers" e = Some (VDict h) ->
  dict_lookup "x-forwarded-for" h = Some (VStr s) ->
  exists ip,
    IpExtractor.get_client_ip (VDict e) = VStr ip
    /\ trimmed ip
    /\ has_char "," ip = false
    /\ (has_char "," s = false -> ip = str_strip s).
Proof.
  intros Hshape Hh Hkey.
  exists (str_strip (hd EmptyString (str_split "," s))).
  split; [|split; [|split]].
  - rewrite (get_client_ip_header e Hshape). unfold forwarded_entry.
    now rewrite Hh, Hkey.
  - apply strip_idempotent.
  - apply rstrip_keeps_out, lstrip_keeps_out, split_first_keeps_out.
  - intros Hs. now rewrite (split_without_separator "," s Hs).
Qed.

Lemma forwarded_entry_is_clean_witness :
  exists ip,
    IpExtractor.get_client_ip
      (VDict [("headers", VDict [("x-forwarded-for", VStr "  10.0.0.7 ,10.0.0.1")])])
    = VStr ip
    /\ trimmed ip /\ has_char "," ip = false.
Proof.
  destruct (forwarded_entry_is_clean
              [("headers", VDict [("x-forwarded-for", VStr "  10.0.0.7 ,10.0.0.1")])]
              [("x-forwarded-for", VStr "  10.0.0.7 ,10.0.0.1")]
              "  10.0.0.7 ,10.0.0.1" (or_introl eq_refl) eq_refl eq_refl)
    as (ip & Hip & Htrim & Hcomma & _).
  exists ip. split; [exact Hip | split; [exact Htrim | exact Hcomma]].
Defined.


(** *** The paths of the handler *)

Lemma validated_event (event : value) :
  fst (IpExtractor.validate_request event) = true ->
  exists e rc, event = VDict e /\ dict_lookup "requestContext" e = Some (VDict rc)
               /\ (truthy_entry "http" rc || truthy_entry "apiId" rc) = true.
Proof.
  destruct event as [|b|z|s|l|e].
  - discriminate.
  - discriminate.
  - discriminate.
  - unfold IpExtractor.validate_request. cbn [contains bind].
    destruct (is_substring "requestContext" s); discriminate.
  - unfold IpExtractor.validate_request. cbn [contains bind].
    destruct (existsb _ l); discriminate.
  - rewrite validate_request_cases.
    destruct (dict_lookup "requestContext" e) as [[| | | | |rc]|] eqn:Hrc;
      try discriminate.
    destruct (truthy_entry "http" rc || truthy_entry "apiId" rc) eqn:H; [|discriminate].
    intros _. exists e, rc. auto.
Qed.

Lemma request_id_of_context (ctx : context) :
  lacks_request_id ctx = false ->
  (if context_truthy ctx then aws_request_id ctx else Ok (VStr "local-test"))
  = Ok (request_id_of ctx).
Proof. destruct ctx as [|[v|]]; [reflexivity | reflexivity | discriminate]. Qed.

Lemma ip_accepted_in_full (e : list (string * value)) (ctx : context) (clk : clock) :
  fst (IpExtractor.validate_request (VDict e)) = true ->
  truthy (IpExtractor.get_client_ip (VDict e)) = true ->
  IpExtractor.lambda_handler (VDict e) ctx clk
  = if lacks_request_id ctx
    then IpExtractor.failure 500 "Internal server error" clk
    else ip_accepted_response e ctx clk.
Proof.
  intros Hv Hip.
  destruct (validated_event (VDict e) Hv) as (e' & rc & [= <-] & Hrc & _).
  unfold IpExtractor.lambda_handler, IpExtractor.handle.
  destruct (IpExtractor.validate_request (VDict e)) as [valid msg]. cbn [fst] in Hv.
  subst valid. rewrite Hip. cbn [negb].
  destruct (lacks_request_id ctx) eqn:Hctx.
  - destruct ctx as [|[v|]]; try discriminate Hctx. reflexivity.
  - rewrite (request_id_of_context ctx Hctx). cbn [bind contains getitem].
    rewrite Hrc. cbn [bind contains getitem].
    unfold ip_accepted_response, gateway_fields, context_entries. rewrite Hrc.
    destruct (dict_lookup "http" rc) as [http|] eqn:Hhttp; cbn [bind].
    + rewrite (get_client_ip_http e rc http Hrc Hhttp) in Hip.
      destruct http as [| | | | |h]; try discriminate Hip.
      cbn [get]. unfold or_none.
      destruct (dict_lookup "method" h), (dict_lookup "path" h); reflexivity.
    + reflexivity.
Qed.


Lemma accepted_field (k : string) (e : list (string * value)) (ctx : context)
      (clk : clock) :
  Response.body_field k (ip_accepted_response e ctx clk)
  = dict_lookup k ([("message", VStr "Request processed successfully");
                    ("client_ip", IpExtractor.get_client_ip (VDict e));
                    ("timestamp", VStr (utcnow_isoformat clk));
                    ("request_id", request_id_of ctx);
                    ("status", VStr "success")] ++ gateway_fields e).
Proof. now apply body_field_dumps. Qed.










(** X14.  [validate_request] on any event, mapping or not: the outcome is
    one of four pairs, success with the empty message or failure with one of
    three messages, so the message is empty exactly on success. *)
Theorem validation_message (event : value) :
  let outcome := IpExtractor.validate_request event in
  (fst outcome = true <-> snd outcome = "")
  /\ In outcome [(true, "");
                 (false, "Request not from API Gateway");
                 (false, "Invalid API Gateway request context");
                 (false, "Error validating request")].
Proof.
  cbv zeta.
  assert (H : In (IpExtractor.validate_request event)
                 [(true, ""); (false, "Request not from API Gateway");
                  (false, "Invalid API Gateway request context");
                  (false, "Error validating request")]).
  { destruct event as [|b|z|s|l|e].
    - cbn; auto.
    - cbn; auto.
    - cbn; auto.
    - unfold IpExtractor.validate_request. cbn [contains bind].
      destruct (is_substring "requestContext" s); cbn; auto.
    - unfold IpExtractor.validate_request. cbn [contains bind].
      destruct (existsb _ l); cbn; auto.
    - rewrite validate_request_cases.
      destruct (dict_lookup "requestContext" e) as [[| | | | |rc]|]; cbn; auto.
      destruct (truthy_entry "http" rc || truthy_entry "apiId" rc); auto. }
  split; [|exact H]. cbn in H.
  destruct H as [<- | [<- | [<- | [<- | []]]]]; cbn; split; congruence.
Qed.

(** X15.  Every body of the IP-Extractor carries the clock reading as
    [timestamp], and it carries an [error] field exactly when the status code
    is not 200. *)
Theorem body_fields_by_outcome (event : value) (ctx : context) (clk : clock) :
  let r := IpExtractor.lambda_handler event ctx clk in
  Response.body_field "timestamp" r = Some (VStr (utcnow_isoformat clk))
  /\ (Response.statusCode r = Some 200 <-> Response.body_field "error" r = None).
Proof.
  cbv zeta.
  assert (Hfail : forall code msg,
             code <> 200 ->
             let r := IpExtractor.failure code msg clk in
             Response.body_field "timestamp" r = Some (VStr (utcnow_isoformat clk))
             /\ (Response.statusCode r = Some 200 <-> Response.body_field "error" r = None)).
  { intros code msg Hcode. cbv zeta. rewrite !failure_field. split; [reflexivity|].
    split; [intros [= E]; congruence | discriminate]. }
  destruct (fst (IpExtractor.validate_request event)) eqn:Hv.
  - destruct (truthy (IpExtractor.get_client_ip event)) eqn:Hip.
    + destruct (validated_event event Hv) as (e & rc & -> & _).
      rewrite (ip_accepted_in_full e ctx clk Hv Hip).
      destruct (lacks_request_id ctx); [apply Hfail; discriminate|].
      rewrite !accepted_field. split; [reflexivity|].
      split; [intros _ | reflexivity].
      unfold gateway_fields. destruct (dict_lookup "http" (context_entries e))
        as [[| | | | |h]|]; reflexivity.
    + rewrite (ip_no_address event ctx clk Hv Hip). apply Hfail. discriminate.
  - rewrite (ip_rejected event ctx clk Hv). apply Hfail. discriminate.
Qed.

End IpExtractorPaths.
